(** * github_issue_comment: the paginated list hydrate

    A shallow embedding of [github/table_github_issue_comment.go]: the table
    declaration [tableGitHubIssueComment] and the cursor-pagination loop of
    [tableGitHubRepositoryIssueCommentList].

    The loop talks to three collaborators that live outside the file: the
    GraphQL client ([client.Query]), the plugin host ([d.StreamListItem],
    [d.RowsRemaining]) and the logger.  They are modelled as transitions on
    an abstract world [W]; every call the loop makes is recorded in a trace,
    so that statements about "which remote calls were issued" and "which rows
    were streamed" are statements about that trace. *)

From Stdlib Require Import ZArith List Bool Lia Ascii String.
From stdpp Require Import gmap strings list fin_maps.

Local Open Scope string_scope.
Local Open Scope list_scope.

(** ** Go values *)

(** Go's [error] interface, identified with the text of [err.Error()];
    a nil error is [None] of [option error]. *)
Definition error : Type := string.

(** Conversion to a 32-bit signed integer, as Go's [int32(x)] does it:
    the low 32 bits, read in two's complement. *)
Definition int32 (z : Z) : Z := ((z + 2 ^ 31) mod 2 ^ 32 - 2 ^ 31)%Z.

Module githubv4.
(** The values the loop stores in [map[string]interface{}]:
    [githubv4.String], [githubv4.Int] (an int32) and [*githubv4.String]
    (nil is [None]). *)
Inductive Value : Type :=
| VString (s : string)
| VInt (n : Z)
| VStringPtr (p : option string).

Definition String (s : string) : Value := VString s.
Definition Int (n : Z) : Value := VInt (int32 n).
(** [githubv4.NewString(v)]: a pointer to a copy of [v]. *)
Definition NewString (v : string) : Value := VStringPtr (Some v).
End githubv4.

Module proto.
(** [proto.QualValue]: the variants the key columns of this table use. *)
Inductive QualValue : Type :=
| StringValue (s : string)
| Int64Value (n : Z)
| BoolValue (b : bool).

(** The generated getters accept a nil receiver and return the zero value
    when the variant is another one. *)
Definition GetInt64Value (q : option QualValue) : Z :=
  match q with
  | Some (Int64Value n) => n
  | _ => 0%Z
  end.

Definition GetStringValue (q : option QualValue) : string :=
  match q with
  | Some (StringValue s) => s
  | _ => ""
  end.
End proto.

Module models.
(** [models.PageInfo]: the two fields the loop reads. *)
Record PageInfo : Type := { EndCursor : string; HasNextPage : bool }.
End models.

Module plugin.
Record QueryContext : Type := { Limit : option Z }.

(** [plugin.QueryData], restricted to what the hydrate reads. *)
Record QueryData : Type := {
  EqualsQuals : gmap string proto.QualValue;
  QueryContext_ : QueryContext
}.
End plugin.

(** Modelled from the spec: [adjustPageSize] is declared elsewhere in the
    repository.  The spec has the page size "clamped to the remote API's
    maximum and to row_budget if that budget is smaller and known", and a
    requested size of zero or less "clamped to a minimum of 1". *)
Definition adjustPageSize (pageSize : Z) (limit : option Z) : Z :=
  match limit with
  | Some l =>
      if (l <? pageSize)%Z then (if (l <? 1)%Z then 1%Z else l) else pageSize
  | None => pageSize
  end.

Section Model.

(** [models.IssueComment] and [models.RateLimit] are declared elsewhere; the
    loop only passes their values on. *)
Context {IssueComment RateLimitT : Type}.

(** ** The query struct of the hydrate *)

Record CommentsT : Type := {
  PageInfo : models.PageInfo;
  TotalCount : Z;
  Nodes : list IssueComment
}.
Record IssueT : Type := { Comments : CommentsT }.
Record RepositoryT : Type := { Issue : IssueT }.
Record QueryT : Type := { RateLimit : RateLimitT; Repository : RepositoryT }.

(** ** The world outside the file *)

Class Runtime (W : Type) : Type := {
  (** [parseRepoFullName] and [isNotFoundError], declared elsewhere in the
      repository. *)
  parseRepoFullName : string -> string * string;
  isNotFoundError : list string -> error -> bool;
  (** [client.Query(ctx, &query, variables)]: fills the struct behind the
      pointer and returns an error or nil. *)
  client_Query : W -> QueryT -> gmap string githubv4.Value ->
                 W * QueryT * option error;
  (** [d.StreamListItem(ctx, item)]. *)
  StreamListItem : W -> IssueComment -> W;
  (** [d.RowsRemaining(ctx)]. *)
  RowsRemaining : W -> Z;
  (** Whether [ctx] has been cancelled. *)
  ctx_cancelled : W -> bool;
  (** Go's zero value of [models.RateLimit]. *)
  zero_RateLimit : RateLimitT
}.

Context {W : Type} {RT : Runtime W}.

(** ** Traces and the monad of the hydrate *)

Inductive Event : Type :=
| CallQuery (variables : gmap string githubv4.Value)
            (query : QueryT) (err : option error)
| LogDebug (rl : RateLimitT)
| LogError (err : error)
| CallStreamListItem (item : IssueComment)
| CallRowsRemaining (n : Z).

(** A computation reads and updates the world and appends to the trace. *)
Definition Eff (A : Type) : Type := W -> A * W * list Event.

Definition ret {A} (a : A) : Eff A := fun w => (a, w, []).

Definition bind {A B} (m : Eff A) (k : A -> Eff B) : Eff B :=
  fun w =>
    let '(a, w1, t1) := m w in
    let '(b, w2, t2) := k a w1 in
    (b, w2, t1 ++ t2).

Notation "x <- m ;; k" := (bind m (fun x => k))
  (at level 100, m at next level, right associativity).
Notation "m ;;; k" := (bind m (fun _ => k))
  (at level 100, right associativity).

Definition value {A} (r : A * W * list Event) : A := r.1.1.
Definition world {A} (r : A * W * list Event) : W := r.1.2.
Definition trace {A} (r : A * W * list Event) : list Event := r.2.

Definition call_Query (query : QueryT) (variables : gmap string githubv4.Value)
  : Eff (QueryT * option error) :=
  fun w =>
    let '(w1, query1, err) := client_Query w query variables in
    ((query1, err), w1, [CallQuery variables query1 err]).

Definition log_Debug (rl : RateLimitT) : Eff unit :=
  fun w => (tt, w, [LogDebug rl]).

Definition log_Error (err : error) : Eff unit :=
  fun w => (tt, w, [LogError err]).

Definition call_StreamListItem (item : IssueComment) : Eff unit :=
  fun w => (tt, StreamListItem w item, [CallStreamListItem item]).

Definition call_RowsRemaining : Eff Z :=
  fun w => (RowsRemaining w, w, [CallRowsRemaining (RowsRemaining w)]).

(** ** tableGitHubRepositoryIssueCommentList *)

(** What the hydrate returns: [(interface{}, error)].  The first component is
    an item or nil. *)
Definition Returned : Type := option IssueComment * option error.

(** Lines 94-101, [for _, comment := range ...Nodes]: [true] when the body
    returned from the hydrate, [false] when the range ran to its end. *)
Fixpoint CommentList_range (nodes : list IssueComment) : Eff bool :=
  match nodes with
  | [] => ret false
  | comment :: rest =>
      call_StreamListItem comment ;;;
      n <- call_RowsRemaining ;;
      if (n =? 0)%Z then ret true else CommentList_range rest
  end.

(** Lines 86-109, the [for] loop and the final return.  [fuel] bounds the
    number of iterations; [None] means the loop is still running after
    [fuel] pages. *)
Fixpoint CommentList_loop (fuel : nat) (query : QueryT)
    (variables : gmap string githubv4.Value) : Eff (option Returned) :=
  match fuel with
  | O => ret None
  | S fuel' =>
      r <- call_Query query variables ;;
      let query := r.1 in
      let err := r.2 in
      log_Debug (RateLimit query) ;;;
      match err with
      | Some e =>
          log_Error e ;;;
          ret (Some (None, Some e))
      | None =>
          returned <- CommentList_range (Nodes (Comments (Issue (Repository query)))) ;;
          if returned then ret (Some (None, None))
          else if negb (models.HasNextPage (PageInfo (Comments (Issue (Repository query)))))
          then ret (Some (None, None))
          else
            CommentList_loop fuel' query
              (<["cursor" := githubv4.NewString
                   (models.EndCursor (PageInfo (Comments (Issue (Repository query)))))]>
                 variables)
      end
  end.

(** Go's zero value of the local [query] struct. *)
Definition zero_query : QueryT :=
  {| RateLimit := zero_RateLimit;
     Repository :=
       {| Issue :=
            {| Comments :=
                 {| PageInfo := {| models.EndCursor := ""; models.HasNextPage := false |};
                    TotalCount := 0;
                    Nodes := [] |} |} |} |}.

(** Lines 57-83: the variables of the query, before the first call.  Go's
    [int] is taken to be 64 bits wide, so [int(...)] of an int64 changes
    nothing; [githubv4.Int(...)] narrows to 32 bits. *)
Definition initial_variables (d : plugin.QueryData) : gmap string githubv4.Value :=
  let quals := plugin.EqualsQuals d in
  let issueNumber := proto.GetInt64Value (quals !! "number") in
  let fullName := proto.GetStringValue (quals !! "repository_full_name") in
  let '(owner, repoName) := parseRepoFullName fullName in
  let pageSize := adjustPageSize 100 (plugin.Limit (plugin.QueryContext_ d)) in
  <["owner" := githubv4.String owner]>
  (<["name" := githubv4.String repoName]>
  (<["issueNumber" := githubv4.Int issueNumber]>
  (<["pageSize" := githubv4.Int pageSize]>
  (<["cursor" := githubv4.VStringPtr None]> ∅)))).

(** Lines 56-110.  [connectV4] (declared elsewhere) only builds the client;
    the client is part of the world. *)
Definition tableGitHubRepositoryIssueCommentList (fuel : nat)
    (d : plugin.QueryData) : Eff (option Returned) :=
  CommentList_loop fuel zero_query (initial_variables d).

(** ** tableGitHubIssueComment *)

Record ListConfig : Type := {
  KeyColumns : list string;
  ShouldIgnoreError : error -> bool;
  Hydrate : nat -> plugin.QueryData -> Eff (option Returned)
}.

Record Table : Type := {
  Name : string;
  Description : string;
  List_ : ListConfig
}.

(** Lines 43-54.  [plugin.AllColumns] makes both key columns required; the
    column list is data mapping only and is left out. *)
Definition tableGitHubIssueComment : Table :=
  {| Name := "github_issue_comment";
     Description := "GitHub Issue Comments are the responses/comments on GitHub Issues.";
     List_ :=
       {| KeyColumns := ["repository_full_name"; "number"];
          ShouldIgnoreError := isNotFoundError ["404"];
          Hydrate := tableGitHubRepositoryIssueCommentList |} |}.

(** Modelled from the spec: the host's use of [ShouldIgnoreError] belongs to
    the plugin framework.  The spec has not-found conditions "treated by the
    caller as an empty result rather than a hard error": an error the
    predicate accepts is dropped, any other error is reported.  The value is
    the error the caller of the table sees ([None] outside: still running). *)
Definition host_list_call (t : Table) (fuel : nat) (d : plugin.QueryData)
  : Eff (option (option error)) :=
  r <- Hydrate (List_ t) fuel d ;;
  match r with
  | None => ret None
  | Some (_, None) => ret (Some None)
  | Some (_, Some e) =>
      if ShouldIgnoreError (List_ t) e then ret (Some None) else ret (Some (Some e))
  end.

(** ** Reading a trace *)

(** The rows handed to [d.StreamListItem], in call order. *)
Definition streamed (tr : list Event) : list IssueComment :=
  omap (fun e => match e with CallStreamListItem c => Some c | _ => None end) tr.

(** The variables of every remote call, in call order. *)
Definition remote_calls (tr : list Event) : list (gmap string githubv4.Value) :=
  omap (fun e => match e with CallQuery v _ _ => Some v | _ => None end) tr.

(** The errors the remote calls returned. *)
Definition remote_errors (tr : list Event) : list error :=
  omap (fun e => match e with CallQuery _ _ (Some err) => Some err | _ => None end) tr.

(** The nodes of every page that was fetched without error, in page order. *)
Definition pages (tr : list Event) : list (list IssueComment) :=
  omap (fun e => match e with
                 | CallQuery _ q None => Some (Nodes (Comments (Issue (Repository q))))
                 | _ => None
                 end) tr.

(** The query struct after every remote call that returned no error. *)
Definition replies (tr : list Event) : list QueryT :=
  omap (fun e => match e with CallQuery _ q None => Some q | _ => None end) tr.

(** Whether [d.RowsRemaining] was seen to be zero. *)
Definition stop_seen (tr : list Event) : bool :=
  existsb (fun e => match e with CallRowsRemaining n => (n =? 0)%Z | _ => false end) tr.

(** The world after the host took [items], one [StreamListItem] each. *)
Definition stream_all (w : W) (items : list IssueComment) : W :=
  fold_left StreamListItem items w.

(** The spec's sentence on cancellation, in its own words, at the point
    between two page fetches of one request.  An iteration of the loop
    starts from [query], [variables] and [w]; its remote call fetches a page
    without error, the rows of the page are streamed without the stop signal
    being seen, and the page announces a next page.  If the context is
    cancelled at that point, "the fetch loop must check for cancellation
    between page fetches and terminate promptly, propagating a cancellation
    error rather than continuing to fetch": the call that fetched the page
    stays the only remote call, and the fetch returns an error.  ([fuel]
    allows at least this one iteration.) *)
Definition spec_cancellation_between_fetches (fuel : nat) (query : QueryT)
    (variables : gmap string githubv4.Value) (w : W) : Prop :=
  (1 <= fuel)%nat ->
  forall (w1 : W) (q1 : QueryT),
    client_Query w query variables = (w1, q1, None) ->
    let nodes := Nodes (Comments (Issue (Repository q1))) in
    (forall k : nat, (k < length nodes)%nat ->
       RowsRemaining (stream_all w1 (take (S k) nodes)) <> 0%Z) ->
    models.HasNextPage (PageInfo (Comments (Issue (Repository q1)))) = true ->
    ctx_cancelled (stream_all w1 nodes) = true ->
    let r := CommentList_loop fuel query variables w in
    remote_calls (trace r) = [variables] /\
    exists e : error, value r = Some (None, Some e).

End Model.

Arguments value : simpl never.
Arguments world : simpl never.
Arguments trace : simpl never.
Arguments CommentsT : clear implicits.
Arguments IssueT : clear implicits.
Arguments RepositoryT : clear implicits.
Arguments QueryT : clear implicits.
Arguments Runtime : clear implicits.
Arguments Event : clear implicits.
Arguments ListConfig : clear implicits.
Arguments Table : clear implicits.

(** ** A scripted remote and host, for running the hydrate *)

Module Mock.

Record Comment : Type := { Id : Z; Body : string }.

(** What the remote answers to a cursor: an error, or a page. *)
Definition Reply : Type := error + CommentsT Comment.

Record World : Type := {
  server : gmap (option string) Reply;
  (** rows the host has received, oldest first *)
  received : list Comment;
  (** the LIMIT of the query, if any *)
  limit : option Z;
  (** the caller cancels the context once it holds that many rows *)
  abort_after : option nat
}.

Definition cancelled (w : World) : bool :=
  match abort_after w with
  | Some n => (n <=? length (received w))%nat
  | None => false
  end.

(** The query struct after a successful call. *)
Definition filled (page : CommentsT Comment) : QueryT Comment Z :=
  {| RateLimit := 5000%Z; Repository := {| Issue := {| Comments := page |} |} |}.

(** The remote: fails on a cancelled context, otherwise answers by the
    cursor variable.  An error leaves the query struct as it was. *)
Definition Query (w : World) (q : QueryT Comment Z)
    (variables : gmap string githubv4.Value) : World * QueryT Comment Z * option error :=
  if cancelled w then (w, q, Some "context canceled")
  else
    match variables !! "cursor" with
    | Some (githubv4.VStringPtr c) =>
        match server w !! c with
        | Some (inr page) => (w, filled page, None)
        | Some (inl e) => (w, q, Some e)
        | None => (w, q, Some "unknown cursor")
        end
    | _ => (w, q, Some "variable cursor missing")
    end.

Definition Stream (w : World) (c : Comment) : World :=
  {| server := server w; received := received w ++ [c];
     limit := limit w; abort_after := abort_after w |}.

(** Zero on a cancelled context or when the limit is reached; without a
    limit, the largest int32. *)
Definition Remaining (w : World) : Z :=
  if cancelled w then 0%Z
  else
    match limit w with
    | Some l => Z.max 0 (l - Z.of_nat (length (received w)))
    | None => 2147483647%Z
    end.

Fixpoint split_slash (s : string) : string * string :=
  match s with
  | EmptyString => ("", "")
  | String c r =>
      if Ascii.eqb c "/"%char then ("", r)
      else let '(a, b) := split_slash r in (String c a, b)
  end.

Fixpoint mentions (code msg : string) : bool :=
  String.prefix code msg ||
  match msg with
  | EmptyString => false
  | String _ r => mentions code r
  end.

#[global] Instance runtime : Runtime Comment Z World :=
  {| parseRepoFullName := split_slash;
     isNotFoundError := fun codes e => existsb (fun c => mentions c e) codes;
     client_Query := Query;
     StreamListItem := Stream;
     RowsRemaining := Remaining;
     ctx_cancelled := cancelled;
     zero_RateLimit := 0%Z |}.

Definition comment (i : Z) : Comment := {| Id := i; Body := "text" |}.

Definition ids (rows : list Comment) : list Z := map Id rows.

Definition page (nodes : list Comment) (next : bool) (cur : string)
  : CommentsT Comment :=
  {| PageInfo := {| models.EndCursor := cur; models.HasNextPage := next |};
     TotalCount := 5; Nodes := nodes |}.

Definition page1 : CommentsT Comment := page [comment 1; comment 2; comment 3] true "c1".
Definition page2 : CommentsT Comment := page [comment 4; comment 5] false "c2".

(** Two pages behind each other; a remote whose second page fails; a
    remote with one page only. *)
Definition two_pages : gmap (option string) Reply :=
  <[None := inr page1]> (<[Some "c1" := inr page2]> ∅).

Definition second_fails : gmap (option string) Reply :=
  <[None := inr page1]> (<[Some "c1" := inl "502 Bad Gateway"]> ∅).

Definition one_page : gmap (option string) Reply :=
  <[None := inr page2]> ∅.

Definition no_repository : gmap (option string) Reply :=
  <[None := inl "404 Not Found"]> ∅.

Definition start (srv : gmap (option string) Reply) (lim : option Z)
    (abort : option nat) : World :=
  {| server := srv; received := []; limit := lim; abort_after := abort |}.

(** A context whose deadline passes while a remote call is in flight: the
    call still answers, and the context is cancelled when it returns. *)
Definition cancel_now (w : World) : World :=
  {| server := server w; received := received w;
     limit := limit w; abort_after := Some 0%nat |}.

Definition Query_deadline (w : World) (q : QueryT Comment Z)
    (variables : gmap string githubv4.Value) : World * QueryT Comment Z * option error :=
  let '(w1, q1, err) := Query w q variables in (cancel_now w1, q1, err).

Definition runtime_deadline : Runtime Comment Z World :=
  {| parseRepoFullName := split_slash;
     isNotFoundError := fun codes e => existsb (fun c => mentions c e) codes;
     client_Query := Query_deadline;
     StreamListItem := Stream;
     RowsRemaining := Remaining;
     ctx_cancelled := cancelled;
     zero_RateLimit := 0%Z |}.

(** A first page without nodes that announces a next page. *)
Definition page0 : CommentsT Comment := page [] true "c1".

Definition empty_then_page : gmap (option string) Reply :=
  <[None := inr page0]> (<[Some "c1" := inr page2]> ∅).

Definition request (lim : option Z) : plugin.QueryData :=
  {| plugin.EqualsQuals :=
       <["repository_full_name" := proto.StringValue "turbot/steampipe"]>
       (<["number" := proto.Int64Value 42]> ∅);
     plugin.QueryContext_ := {| plugin.Limit := lim |} |}.

End Mock.

(** ** More readings of a trace *)

Section Readings.

Context {IssueComment RateLimitT : Type}.

(** The values [d.RowsRemaining] returned, in call order. *)
Definition checks (tr : list (Event IssueComment RateLimitT)) : list Z :=
  omap (fun e => match e with CallRowsRemaining n => Some n | _ => None end) tr.

(** The calls to the host, in call order: a streamed row, or the value of
    a [d.RowsRemaining] call. *)
Definition host_calls (tr : list (Event IssueComment RateLimitT))
  : list (IssueComment + Z) :=
  omap (fun e => match e with
                 | CallStreamListItem c => Some (inl c)
                 | CallRowsRemaining n => Some (inr n)
                 | _ => None
                 end) tr.

(** A streamed row and the [d.RowsRemaining] call that follows it. *)
Definition row_then_check (p : IssueComment * Z) : list (IssueComment + Z) :=
  [inl p.1; inr p.2].

(** The query struct as every remote call left it, failed calls included. *)
Definition structs (tr : list (Event IssueComment RateLimitT))
  : list (QueryT IssueComment RateLimitT) :=
  omap (fun e => match e with CallQuery _ q _ => Some q | _ => None end) tr.

(** What the logger received at debug level and at error level. *)
Definition debug_logs (tr : list (Event IssueComment RateLimitT)) : list RateLimitT :=
  omap (fun e => match e with LogDebug rl => Some rl | _ => None end) tr.

Definition error_logs (tr : list (Event IssueComment RateLimitT)) : list error :=
  omap (fun e => match e with LogError err => Some err | _ => None end) tr.

End Readings.

(** ** sharedCommentsColumns *)

Module schema.

Inductive ColumnType : Type :=
| ColumnType_STRING
| ColumnType_INT
| ColumnType_JSON
| ColumnType_TIMESTAMP
| ColumnType_BOOL.

(** The functions handed to [.Transform(...)]; [convertTimestamp] is
    declared elsewhere in the repository. *)
Inductive TransformFunc : Type := convertTimestamp.

(** One call of a transform chain, as it is written in the column list:
    [transform.FromQual(name)], [transform.FromField(paths...)],
    [.NullIfZero()], [.Transform(f)]. *)
Inductive TransformCall : Type :=
| FromQual (name : string)
| FromField (fieldNames : list string)
| NullIfZero
| Transform (f : TransformFunc).

Record Column : Type := col {
  Name : string;
  Type_ : ColumnType;
  Transform_ : list TransformCall;
  Description : string
}.

#[global] Instance ColumnType_eq_dec : EqDecision ColumnType.
Proof. solve_decision. Defined.

#[global] Instance TransformFunc_eq_dec : EqDecision TransformFunc.
Proof. solve_decision. Defined.

#[global] Instance TransformCall_eq_dec : EqDecision TransformCall.
Proof. solve_decision. Defined.

(** Lines 12-41. *)
Definition sharedCommentsColumns : list Column :=
  [
    col "repository_full_name" ColumnType_STRING [FromQual "repository_full_name"]
      "The full name of the repository (login/repo-name).";
    col "number" ColumnType_INT [FromQual "number"]
      "The issue/pr number.";
    col "id" ColumnType_INT [FromField ["Id"; "Node.Id"]]
      "The ID of the comment.";
    col "node_id" ColumnType_STRING [FromField ["NodeId"; "Node.NodeId"]]
      "The node ID of the comment.";
    col "author" ColumnType_JSON [FromField ["Author"; "Node.Author"]; NullIfZero]
      "The actor who authored the comment.";
    col "author_login" ColumnType_STRING [FromField ["Author.Login"; "Node.Author.Login"]]
      "The login of the comment author.";
    col "author_association" ColumnType_STRING [FromField ["AuthorAssociation"; "Node.AuthorAssociation"]]
      "Author's association with the subject of the issue/pr the comment was raised on.";
    col "body" ColumnType_STRING [FromField ["Body"; "Node.Body"]]
      "The contents of the comment as markdown.";
    col "body_text" ColumnType_STRING [FromField ["BodyText"; "Node.BodyText"]]
      "The contents of the comment as text.";
    col "created_at" ColumnType_TIMESTAMP [FromField ["CreatedAt"; "Node.CreatedAt"]; NullIfZero; Transform convertTimestamp]
      "Timestamp when comment was created.";
    col "created_via_email" ColumnType_BOOL [FromField ["CreatedViaEmail"; "Node.CreatedViaEmail"]]
      "If true, comment was created via email.";
    col "editor" ColumnType_JSON [FromField ["Editor"; "Node.Editor"]; NullIfZero]
      "The actor who edited the comment.";
    col "editor_login" ColumnType_STRING [FromField ["Editor.Login"; "Node.Editor.Login"]]
      "The login of the comment editor.";
    col "includes_created_edit" ColumnType_BOOL [FromField ["IncludesCreatedEdit"; "Node.IncludesCreatedEdit"]]
      "If true, comment was edited and includes an edit with the creation data.";
    col "is_minimized" ColumnType_BOOL [FromField ["IsMinimized"; "Node.IsMinimized"]]
      "If true, comment has been minimized.";
    col "minimized_reason" ColumnType_STRING [FromField ["MinimizedReason"; "Node.MinimizedReason"]]
      "The reason for comment being minimized.";
    col "last_edited_at" ColumnType_TIMESTAMP [FromField ["LastEditedAt"; "Node.LastEditedAt"]; NullIfZero; Transform convertTimestamp]
      "Timestamp when comment was last edited.";
    col "published_at" ColumnType_TIMESTAMP [FromField ["PublishedAt"; "Node.PublishedAt"]; NullIfZero; Transform convertTimestamp]
      "Timestamp when comment was published.";
    col "updated_at" ColumnType_TIMESTAMP [FromField ["UpdatedAt"; "Node.UpdatedAt"]; NullIfZero; Transform convertTimestamp]
      "Timestamp when comment was last updated.";
    col "url" ColumnType_STRING [FromField ["Url"; "Node.Url"]]
      "URL for the comment.";
    col "can_delete" ColumnType_BOOL [FromField ["CanDelete"; "Node.CanDelete"]]
      "If true, user can delete the comment.";
    col "can_minimize" ColumnType_BOOL [FromField ["CanMinimize"; "Node.CanMinimize"]]
      "If true, user can minimize the comment.";
    col "can_react" ColumnType_BOOL [FromField ["CanReact"; "Node.CanReact"]]
      "If true, user can react to the comment.";
    col "can_update" ColumnType_BOOL [FromField ["CanUpdate"; "Node.CanUpdate"]]
      "If true, user can update the comment.";
    col "cannot_update_reasons" ColumnType_JSON [FromField ["CannotUpdateReasons"; "Node.CannotUpdateReasons"]; NullIfZero]
      "A list of reasons why user cannot update the comment.";
    col "did_author" ColumnType_BOOL [FromField ["DidAuthor"; "Node.DidAuthor"]]
      "If true, user authored the comment."
  ].

(** The field paths a column reads, if it reads a field. *)
Definition field_paths (c : Column) : option (list string) :=
  match Transform_ c with
  | FromField paths :: _ => Some paths
  | _ => None
  end.

(** The qualifier a column is copied from, if it is. *)
Definition qual_of (c : Column) : option string :=
  match Transform_ c with
  | FromQual q :: _ => Some q
  | _ => None
  end.

End schema.

(** * Properties *)

Section Properties.

Context {IssueComment RateLimitT W : Type}.
Context {RT : Runtime IssueComment RateLimitT W}.

Abbreviation Ev := (Event IssueComment RateLimitT).
Abbreviation Query := (QueryT IssueComment RateLimitT).
Abbreviation nodes_of q := (Nodes (Comments (Issue (Repository q)))).
Abbreviation info_of q := (PageInfo (Comments (Issue (Repository q)))).

(** ** One step of each loop *)

Lemma range_nil (w : W) : CommentList_range [] w = (false, w, []).
Proof. reflexivity. Qed.

Lemma range_cons (c : IssueComment) (rest : list IssueComment) (w : W) :
  CommentList_range (c :: rest) w =
    let w1 := StreamListItem w c in
    let seen := [CallStreamListItem c; CallRowsRemaining (RowsRemaining w1)] in
    if (RowsRemaining w1 =? 0)%Z then (true, w1, seen : list Ev)
    else
      let r := CommentList_range rest w1 in
      (value r, world r, seen ++ trace r).
Proof.
  cbn [CommentList_range]. unfold bind, call_StreamListItem, call_RowsRemaining, ret.
  cbn. destruct (RowsRemaining (StreamListItem w c) =? 0)%Z; [reflexivity|].
  destruct (CommentList_range rest (StreamListItem w c)) as [[b w2] t2].
  reflexivity.
Qed.

Lemma loop_O (query : Query) variables (w : W) :
  CommentList_loop 0 query variables w = (None, w, []).
Proof. reflexivity. Qed.

Lemma loop_S (fuel : nat) (query : Query) variables (w : W) :
  CommentList_loop (S fuel) query variables w =
    let '(w1, q1, err) := client_Query w query variables in
    let head := [CallQuery variables q1 err; LogDebug (RateLimit q1)] : list Ev in
    match err with
    | Some e => (Some (None, Some e), w1, head ++ [LogError e])
    | None =>
        let r := CommentList_range (nodes_of q1) w1 in
        if value r then (Some (None, None), world r, head ++ trace r)
        else if negb (models.HasNextPage (info_of q1))
        then (Some (None, None), world r, head ++ trace r)
        else
          let r' := CommentList_loop fuel q1
                      (<["cursor" := githubv4.NewString (models.EndCursor (info_of q1))]>
                         variables) (world r) in
          (value r', world r', head ++ trace r ++ trace r')
    end.
Proof.
  cbn [CommentList_loop]. unfold bind, call_Query, log_Debug, log_Error, ret.
  destruct (client_Query w query variables) as [[w1 q1] err].
  cbn [fst snd]. destruct err as [e|]; [reflexivity|].
  destruct (CommentList_range (nodes_of q1) w1) as [[b w2] t2].
  unfold value, world, trace. cbn [fst snd].
  destruct b; [cbn; by rewrite app_nil_r|].
  destruct (negb (models.HasNextPage (info_of q1))); [cbn; by rewrite app_nil_r|].
  destruct (CommentList_loop fuel q1 _ w2) as [[o w3] t3].
  reflexivity.
Qed.

(** ** Reading the trace of a concatenation *)

Lemma value_triple {A} (a : A) (w : W) (t : list Ev) : value (a, w, t) = a.
Proof. reflexivity. Qed.

Lemma world_triple {A} (a : A) (w : W) (t : list Ev) : world (a, w, t) = w.
Proof. reflexivity. Qed.

Lemma trace_triple {A} (a : A) (w : W) (t : list Ev) : trace (a, w, t) = t.
Proof. reflexivity. Qed.

Lemma streamed_app (t1 t2 : list Ev) : streamed (t1 ++ t2) = streamed t1 ++ streamed t2.
Proof. apply omap_app. Qed.

Lemma remote_calls_app (t1 t2 : list Ev) :
  remote_calls (t1 ++ t2) = remote_calls t1 ++ remote_calls t2.
Proof. apply omap_app. Qed.

Lemma remote_errors_app (t1 t2 : list Ev) :
  remote_errors (t1 ++ t2) = remote_errors t1 ++ remote_errors t2.
Proof. apply omap_app. Qed.

Lemma pages_app (t1 t2 : list Ev) : pages (t1 ++ t2) = pages t1 ++ pages t2.
Proof. apply omap_app. Qed.

Lemma replies_app (t1 t2 : list Ev) : replies (t1 ++ t2) = replies t1 ++ replies t2.
Proof. apply omap_app. Qed.

Lemma stop_seen_app (t1 t2 : list Ev) :
  stop_seen (t1 ++ t2) = stop_seen t1 || stop_seen t2.
Proof. apply existsb_app. Qed.

Ltac read_trace :=
  rewrite ?value_triple, ?world_triple, ?trace_triple, ?streamed_app, ?remote_calls_app, ?remote_errors_app, ?pages_app,
    ?replies_app,
    ?stop_seen_app;
  cbn.

(** ** The range over one page *)

(** The range issues no remote call. *)
Lemma range_local (nodes : list IssueComment) (w : W) :
  remote_calls (trace (CommentList_range nodes w)) = [] /\
  remote_errors (trace (CommentList_range nodes w)) = [] /\
  pages (trace (CommentList_range nodes w)) = [].
Proof.
  revert w. induction nodes as [|c rest IH]; intros w; [done|].
  rewrite range_cons. cbn zeta.
  destruct (RowsRemaining (StreamListItem w c) =? 0)%Z; [done|].
  read_trace. apply IH.
Qed.

(** A range that runs to its end has streamed the whole page and never saw
    the stop signal. *)
Lemma range_false (nodes : list IssueComment) (w : W) :
  value (CommentList_range nodes w) = false ->
  streamed (trace (CommentList_range nodes w)) = nodes /\
  stop_seen (trace (CommentList_range nodes w)) = false /\
  world (CommentList_range nodes w) = stream_all w nodes.
Proof.
  revert w. induction nodes as [|c rest IH]; intros w; [done|].
  rewrite range_cons. cbn zeta.
  destruct (RowsRemaining (StreamListItem w c) =? 0)%Z eqn:Hz; [done|].
  read_trace. intros Hv. destruct (IH _ Hv) as (Hs & Hn & Hw).
  rewrite Hz, Hs, Hn, Hw. done.
Qed.

(** A range that returns from the hydrate stopped right after the row at
    some index [k] of the page, on the first zero it saw. *)
Lemma range_true (nodes : list IssueComment) (w : W) :
  value (CommentList_range nodes w) = true ->
  exists (k : nat) (c : IssueComment) (t1 : list Ev),
    nodes !! k = Some c /\
    trace (CommentList_range nodes w) =
      t1 ++ [CallStreamListItem c; CallRowsRemaining 0] /\
    stop_seen t1 = false /\
    streamed t1 = take k nodes /\
    remote_calls t1 = [] /\
    world (CommentList_range nodes w) = stream_all w (take (S k) nodes) /\
    RowsRemaining (world (CommentList_range nodes w)) = 0%Z.
Proof.
  revert w. induction nodes as [|c rest IH]; intros w; [done|].
  rewrite range_cons. cbn zeta.
  destruct (RowsRemaining (StreamListItem w c) =? 0)%Z eqn:Hz.
  - intros _. apply Z.eqb_eq in Hz. exists 0%nat, c, [].
    read_trace. rewrite Hz. done.
  - read_trace. intros Hv.
    destruct (IH _ Hv) as (k & c' & t1 & Hk & Ht & Hn & Hs & Hc & Hw & Hr).
    exists (S k), c', ([CallStreamListItem c; CallRowsRemaining (RowsRemaining (StreamListItem w c))] ++ t1).
    rewrite Hw in Hr. rewrite Ht, Hw. read_trace. rewrite Hz, Hn, Hs, Hc. done.
Qed.

(** While rows remain after every row of the page, the range runs to its end. *)
Lemma range_runs (nodes : list IssueComment) (w : W) :
  (forall k : nat, RowsRemaining (stream_all w (take (S k) nodes)) <> 0%Z) ->
  value (CommentList_range nodes w) = false.
Proof.
  revert w. induction nodes as [|c rest IH]; intros w Hrem; [done|].
  rewrite range_cons. cbn zeta.
  destruct (RowsRemaining (StreamListItem w c) =? 0)%Z eqn:Hz.
  - apply Z.eqb_eq in Hz. by destruct (Hrem 0%nat).
  - read_trace. apply IH. intros k. apply (Hrem (S k)).
Qed.

(** The range stops on the first row after which no rows remain. *)
Lemma range_stops (pre post : list IssueComment) (c : IssueComment) (w : W) :
  stop_seen (trace (CommentList_range pre w)) = false ->
  RowsRemaining (StreamListItem (stream_all w pre) c) = 0%Z ->
  CommentList_range (pre ++ c :: post) w =
    (true, StreamListItem (stream_all w pre) c,
     trace (CommentList_range pre w) ++ [CallStreamListItem c; CallRowsRemaining 0]).
Proof.
  revert w. induction pre as [|a pre IH]; intros w Hn Hz.
  - cbn [app]. rewrite range_cons. cbn zeta. cbn in Hz. rewrite Hz. done.
  - cbn [app]. rewrite !range_cons. rewrite range_cons in Hn. cbn zeta in *.
    destruct (RowsRemaining (StreamListItem w a) =? 0)%Z eqn:Ha.
    + revert Hn. read_trace. by rewrite Ha.
    + revert Hn. read_trace. rewrite Ha. cbn. intros Hn.
      rewrite (IH (StreamListItem w a) Hn Hz). by read_trace.
Qed.

(** ** The page loop *)

(** Rows and pages: without a stop the rows are the pages end to end; with a
    stop they end inside the last page fetched. *)
Lemma loop_stream (fuel : nat) (query : Query) variables (w : W) :
  let tr := trace (CommentList_loop fuel query variables w) in
  (stop_seen tr = false -> streamed tr = concat (pages tr)) /\
  (stop_seen tr = true ->
     exists ps p (k : nat),
       pages tr = ps ++ [p] /\ (0 < k <= length p)%nat /\
       streamed tr = concat ps ++ take k p).
Proof.
  revert query variables w. induction fuel as [|fuel IH]; intros query variables w.
  { rewrite loop_O. by read_trace. }
  rewrite loop_S.
  destruct (client_Query w query variables) as [[w1 q1] [e|]]; cbn zeta.
  { by read_trace. }
  pose proof (range_local (nodes_of q1) w1) as (_ & _ & Hpg).
  destruct (value (CommentList_range (nodes_of q1) w1)) eqn:Hv.
  - destruct (range_true _ _ Hv) as (k & c & t1 & Hk & Ht & Hn & Hs & _ & _ & _).
    read_trace. rewrite Hpg. rewrite Ht. read_trace. rewrite Hn, Hs. cbn.
    split; [done|]. intros _. exists [], (nodes_of q1), (S k).
    cbn. rewrite (take_S_r _ _ _ Hk). apply lookup_lt_Some in Hk.
    split; [done|]. split; [lia|done].
  - destruct (range_false _ _ Hv) as (Hs & Hn & _).
    destruct (negb (models.HasNextPage (info_of q1))).
    + read_trace. rewrite Hpg, Hs, Hn. cbn. by rewrite app_nil_r.
    + read_trace. rewrite Hpg, Hs, Hn. cbn.
      match goal with |- context [CommentList_loop fuel ?q ?v ?w'] =>
        destruct (IH q v w') as [IH1 IH2] end.
      split.
      * intros Hst. by rewrite (IH1 Hst).
      * intros Hst. destruct (IH2 Hst) as (ps & p & k' & Hp & Hk & Hstr).
        exists (nodes_of q1 :: ps), p, k'. rewrite Hp, Hstr. cbn.
        by rewrite app_assoc.
Qed.

(** A failed remote call is the last one: the loop logs it and returns its
    error; before it no call failed, no stop was seen, and every page fetched
    was streamed in full. *)
Lemma loop_error (fuel : nat) (query : Query) variables (w : W) (e : error) :
  e ∈ remote_errors (trace (CommentList_loop fuel query variables w)) ->
  exists (t1 : list Ev) v' (q' : Query),
    trace (CommentList_loop fuel query variables w) =
      t1 ++ [CallQuery v' q' (Some e); LogDebug (RateLimit q'); LogError e] /\
    remote_errors t1 = [] /\
    stop_seen t1 = false /\
    streamed t1 = concat (pages t1) /\
    value (CommentList_loop fuel query variables w) = Some (None, Some e).
Proof.
  revert query variables w. induction fuel as [|fuel IH]; intros query variables w.
  { rewrite loop_O. read_trace. by intros ?%elem_of_nil. }
  rewrite loop_S.
  destruct (client_Query w query variables) as [[w1 q1] [e'|]]; cbn zeta.
  { read_trace. intros ->%list_elem_of_singleton.
    exists [], variables, q1. by read_trace. }
  pose proof (range_local (nodes_of q1) w1) as (_ & Her & Hpg).
  destruct (value (CommentList_range (nodes_of q1) w1)) eqn:Hv.
  { read_trace. rewrite Her. by intros ?%elem_of_nil. }
  destruct (range_false _ _ Hv) as (Hs & Hn & _).
  destruct (negb (models.HasNextPage (info_of q1))).
  { read_trace. rewrite Her. by intros ?%elem_of_nil. }
  read_trace. rewrite Her. cbn. intros Hin.
  destruct (IH _ _ _ Hin) as (t1 & v' & q' & Ht & He1 & Hn1 & Hs1 & Hval).
  exists ([CallQuery variables q1 None; LogDebug (RateLimit q1)]
            ++ trace (CommentList_range (nodes_of q1) w1) ++ t1), v', q'.
  rewrite Ht, Hval. read_trace. rewrite Her, Hpg, Hs, Hn, He1, Hn1, Hs1. cbn.
  by rewrite <- !app_assoc.
Qed.

(** Once [d.RowsRemaining] is seen to be zero the hydrate returns [nil, nil]:
    the observation is the last event of the trace, and the row streamed just
    before it lies in the last page fetched. *)
Lemma loop_stop (fuel : nat) (query : Query) variables (w : W) :
  stop_seen (trace (CommentList_loop fuel query variables w)) = true ->
  value (CommentList_loop fuel query variables w) = Some (None, None) /\
  exists (t1 : list Ev) (c : IssueComment) ps p (k : nat),
    trace (CommentList_loop fuel query variables w) =
      t1 ++ [CallStreamListItem c; CallRowsRemaining 0] /\
    stop_seen t1 = false /\
    pages t1 = ps ++ [p] /\
    p !! k = Some c /\
    streamed t1 = concat ps ++ take k p.
Proof.
  revert query variables w. induction fuel as [|fuel IH]; intros query variables w.
  { rewrite loop_O. by read_trace. }
  rewrite loop_S.
  destruct (client_Query w query variables) as [[w1 q1] [e'|]]; cbn zeta.
  { by read_trace. }
  pose proof (range_local (nodes_of q1) w1) as (_ & _ & Hpg).
  destruct (value (CommentList_range (nodes_of q1) w1)) eqn:Hv.
  { destruct (range_true _ _ Hv) as (k & c & t1 & Hk & Ht & Hn & Hs & _ & _ & _).
    read_trace. intros _. split; [done|].
    exists ([CallQuery variables q1 None; LogDebug (RateLimit q1)] ++ t1),
      c, [], (nodes_of q1), k.
    rewrite Ht in Hpg |- *. revert Hpg. read_trace. rewrite app_nil_r.
    intros ->. by rewrite Hn, Hs. }
  destruct (range_false _ _ Hv) as (Hs & Hn & _).
  destruct (negb (models.HasNextPage (info_of q1))).
  { read_trace. by rewrite Hn. }
  read_trace. rewrite Hn. cbn. intros Hst.
  destruct (IH _ _ _ Hst) as (Hval & t1 & c & ps & p & k & Ht & Hn1 & Hp & Hk & Hs1).
  split; [done|].
  exists ([CallQuery variables q1 None; LogDebug (RateLimit q1)]
            ++ trace (CommentList_range (nodes_of q1) w1) ++ t1),
    c, (nodes_of q1 :: ps), p, k.
  rewrite Ht. read_trace. rewrite Hpg, Hs, Hn, Hn1, Hp, Hs1. cbn.
  by rewrite <- !app_assoc.
Qed.

(** Every remote call carries the variables the loop started with, except
    for the entry under "cursor". *)
Lemma loop_frame (fuel : nat) (query : Query)
    (variables : gmap string githubv4.Value) (w : W) :
  Forall (fun v' : gmap string githubv4.Value =>
            forall key : string, key <> "cursor" -> v' !! key = variables !! key)
    (remote_calls (trace (CommentList_loop fuel query variables w))).
Proof.
  revert query variables w. induction fuel as [|fuel IH]; intros query variables w.
  { rewrite loop_O. read_trace. constructor. }
  rewrite loop_S.
  destruct (client_Query w query variables) as [[w1 q1] [e'|]]; cbn zeta.
  { read_trace. by repeat constructor. }
  pose proof (range_local (nodes_of q1) w1) as (Hc & _ & _).
  destruct (value (CommentList_range (nodes_of q1) w1)).
  { read_trace. rewrite Hc. by repeat constructor. }
  destruct (negb (models.HasNextPage (info_of q1))).
  { read_trace. rewrite Hc. by repeat constructor. }
  read_trace. rewrite Hc. cbn. constructor; [done|].
  eapply Forall_impl; [apply IH|]. cbn. intros v' Hv' key Hkey.
  rewrite (Hv' key Hkey). by apply lookup_insert_ne.
Qed.

Lemma range_no_replies (nodes : list IssueComment) (w : W) :
  replies (trace (CommentList_range nodes w)) = [].
Proof.
  revert w. induction nodes as [|c rest IH]; intros w; [done|].
  rewrite range_cons. cbn zeta.
  destruct (RowsRemaining (StreamListItem w c) =? 0)%Z; [done|].
  read_trace. apply IH.
Qed.

(** The three ways out of the hydrate.  Whenever it returns, the result is
    nil, and the error tells the way: a remote call's error; or no error
    after a stop; or no error, no stop, and a last page that announced no
    next page. *)
Lemma loop_exit (fuel : nat) (query : Query) variables (w : W) res err :
  let r := CommentList_loop fuel query variables w in
  value r = Some (res, err) ->
  res = None /\
  ((exists e : error, err = Some e /\ e ∈ remote_errors (trace r)) \/
   (err = None /\ stop_seen (trace r) = true) \/
   (err = None /\ stop_seen (trace r) = false /\
    exists q : Query, last (replies (trace r)) = Some q /\
                      models.HasNextPage (info_of q) = false)).
Proof.
  cbn zeta. revert query variables w.
  induction fuel as [|fuel IH]; intros query variables w.
  { rewrite loop_O. by read_trace. }
  rewrite loop_S.
  destruct (client_Query w query variables) as [[w1 q1] [e'|]]; cbn zeta.
  { read_trace. intros [= <- <-]. split; [done|]. left. exists e'.
    split; [done|]. apply list_elem_of_here. }
  pose proof (range_local (nodes_of q1) w1) as (_ & Her & _).
  pose proof (range_no_replies (nodes_of q1) w1) as Hrep.
  destruct (value (CommentList_range (nodes_of q1) w1)) eqn:Hv.
  { destruct (range_true _ _ Hv) as (k & c & t1 & _ & Ht & _).
    read_trace. intros [= <- <-]. split; [done|]. right; left.
    rewrite Ht. read_trace. by rewrite orb_true_r. }
  destruct (range_false _ _ Hv) as (_ & Hn & _).
  destruct (models.HasNextPage (info_of q1)) eqn:Hnext; cbn [negb].
  2:{ read_trace. intros [= <- <-]. split; [done|]. right; right.
      rewrite Hn, Hrep. cbn. eauto. }
  read_trace. rewrite Her, Hn, Hrep. cbn. intros Hval.
  destruct (IH _ _ _ Hval) as (Hres & Hpath). split; [done|].
  destruct Hpath as [Hp|[Hp|(He & Hs & q & Hq & Hqn)]]; [by left|by right; left|].
  right; right. split; [done|]. split; [done|]. exists q. split; [|done].
  rewrite last_cons. by rewrite Hq.
Qed.

(** ** The variables of the first call *)

Lemma initial_variables_lookup (d : plugin.QueryData) :
  let quals := plugin.EqualsQuals d in
  let names := parseRepoFullName (proto.GetStringValue (quals !! "repository_full_name")) in
  initial_variables d !! "owner" = Some (githubv4.String names.1) /\
  initial_variables d !! "name" = Some (githubv4.String names.2) /\
  initial_variables d !! "issueNumber" =
    Some (githubv4.Int (proto.GetInt64Value (quals !! "number"))) /\
  initial_variables d !! "pageSize" =
    Some (githubv4.Int (adjustPageSize 100 (plugin.Limit (plugin.QueryContext_ d)))) /\
  initial_variables d !! "cursor" = Some (githubv4.VStringPtr None).
Proof.
  cbn zeta. unfold initial_variables.
  destruct (parseRepoFullName _) as [owner repoName]. cbn [fst snd].
  repeat split; by simplify_map_eq.
Qed.

Lemma adjustPageSize_bounds (pageSize : Z) (limit : option Z) :
  (1 <= pageSize)%Z ->
  (1 <= adjustPageSize pageSize limit <= pageSize)%Z.
Proof.
  intros Hp. unfold adjustPageSize. destruct limit as [l|]; [|lia].
  destruct (Z.ltb_spec l pageSize); [|lia].
  destruct (Z.ltb_spec l 1); lia.
Qed.

Lemma int32_small (z : Z) : (- 2 ^ 31 <= z < 2 ^ 31)%Z -> int32 z = z.
Proof. intros Hz. unfold int32. rewrite Z.mod_small; lia. Qed.

(** ** The claims about tableGitHubRepositoryIssueCommentList *)

(** C1.  For every request, at every point of the run, the rows handed to the
    stream consumer are the nodes of the fetched pages, in page order and in
    server order inside a page: all of them when no stop was signalled (this
    covers the run that ends on a remote error), and, after a stop, all
    pages but the last followed by a non-empty prefix of the last page. *)
Theorem stream_is_concatenation_of_pages (fuel : nat) (d : plugin.QueryData) (w : W) :
  let tr := trace (tableGitHubRepositoryIssueCommentList fuel d w) in
  (stop_seen tr = false -> streamed tr = concat (pages tr)) /\
  (stop_seen tr = true ->
     exists ps p (k : nat),
       pages tr = ps ++ [p] /\ (0 < k <= length p)%nat /\
       streamed tr = concat ps ++ take k p).
Proof. apply loop_stream. Qed.

(** C2.  A remote of exactly two pages, the first announcing a next page
    with end cursor [c1], the second announcing none, and a budget that is
    never exhausted: the fetch returns normally after exactly two remote
    calls, the first with a nil cursor and the second with [c1], and streams
    the nodes of both pages. *)
Theorem two_pages_two_calls (fuel : nat) (d : plugin.QueryData) (w w1 w2 : W)
    (q1 q2 : Query) (c1 : string) :
  (2 <= fuel)%nat ->
  (forall q v, v !! "cursor" = Some (githubv4.VStringPtr None) ->
     client_Query w q v = (w1, q1, None)) ->
  models.HasNextPage (info_of q1) = true ->
  models.EndCursor (info_of q1) = c1 ->
  (forall q v, v !! "cursor" = Some (githubv4.VStringPtr (Some c1)) ->
     client_Query (stream_all w1 (nodes_of q1)) q v = (w2, q2, None)) ->
  models.HasNextPage (info_of q2) = false ->
  (forall k : nat, RowsRemaining (stream_all w1 (take (S k) (nodes_of q1))) <> 0%Z) ->
  (forall k : nat, RowsRemaining (stream_all w2 (take (S k) (nodes_of q2))) <> 0%Z) ->
  let r := tableGitHubRepositoryIssueCommentList fuel d w in
  value r = Some (None, None) /\
  (exists v0 v1 : gmap string githubv4.Value,
     remote_calls (trace r) = [v0; v1] /\
     v0 !! "cursor" = Some (githubv4.VStringPtr None) /\
     v1 !! "cursor" = Some (githubv4.VStringPtr (Some c1))) /\
  streamed (trace r) = nodes_of q1 ++ nodes_of q2.
Proof.
  intros Hfuel H1 Hnext1 Hc1 H2 Hnext2 Hrem1 Hrem2.
  destruct fuel as [|[|fuel]]; [lia|lia|].
  destruct (initial_variables_lookup d) as (_ & _ & _ & _ & Hcur).
  cbn zeta. unfold tableGitHubRepositoryIssueCommentList.
  rewrite loop_S, (H1 _ _ Hcur). cbn zeta.
  pose proof (range_runs _ _ Hrem1) as Hv1.
  destruct (range_false _ _ Hv1) as (Hs1 & _ & Hw1).
  pose proof (range_local (nodes_of q1) w1) as (Hcalls1 & _ & _).
  rewrite Hv1, Hnext1. cbn [negb].
  rewrite loop_S, Hw1, Hc1, H2 by apply lookup_insert_eq. cbn zeta.
  pose proof (range_runs _ _ Hrem2) as Hv2.
  destruct (range_false _ _ Hv2) as (Hs2 & _ & _).
  pose proof (range_local (nodes_of q2) w2) as (Hcalls2 & _ & _).
  rewrite Hv2, Hnext2. cbn [negb]. read_trace.
  rewrite Hs1, Hs2, Hcalls1, Hcalls2. cbn.
  split; [done|]. split; [|done].
  eexists _, _. split; [done|]. split; [done|]. apply lookup_insert_eq.
Qed.

(** C3.  When a remote call fails, the fetch returns that very error with a
    nil result; the failing call is the last remote call, followed only by
    the two log lines; no earlier call failed; and the rows streamed are the
    rows of the pages fetched before it, each page once and in full, all of
    them streamed before the failing call. *)
Theorem remote_error_aborts (fuel : nat) (d : plugin.QueryData) (w : W) (e : error) :
  let r := tableGitHubRepositoryIssueCommentList fuel d w in
  e ∈ remote_errors (trace r) ->
  value r = Some (None, Some e) /\
  exists (t1 : list Ev) v (q : Query),
    trace r = t1 ++ [CallQuery v q (Some e); LogDebug (RateLimit q); LogError e] /\
    remote_errors t1 = [] /\
    remote_calls (trace r) = remote_calls t1 ++ [v] /\
    pages (trace r) = pages t1 /\
    streamed t1 = concat (pages t1) /\
    streamed (trace r) = streamed t1.
Proof.
  cbn zeta. unfold tableGitHubRepositoryIssueCommentList. intros Hin.
  destruct (loop_error _ _ _ _ _ Hin) as (t1 & v & q & Ht & He & _ & Hs & Hval).
  split; [done|]. exists t1, v, q. rewrite Ht. read_trace.
  by rewrite !app_nil_r.
Qed.

(** C4.  When [d.RowsRemaining] is seen to be zero after a streamed row, the
    fetch returns [nil, nil]: the observation is the last event, so no remote
    call follows it, and the row just streamed lies in the last page that was
    fetched. *)
Theorem stop_ends_fetch (fuel : nat) (d : plugin.QueryData) (w : W) :
  let r := tableGitHubRepositoryIssueCommentList fuel d w in
  stop_seen (trace r) = true ->
  value r = Some (None, None) /\
  exists (t1 : list Ev) (c : IssueComment) ps p (k : nat),
    trace r = t1 ++ [CallStreamListItem c; CallRowsRemaining 0] /\
    stop_seen t1 = false /\
    remote_calls (trace r) = remote_calls t1 /\
    pages (trace r) = ps ++ [p] /\
    p !! k = Some c /\
    streamed (trace r) = concat ps ++ take (S k) p.
Proof.
  cbn zeta. unfold tableGitHubRepositoryIssueCommentList. intros Hst.
  destruct (loop_stop _ _ _ _ Hst) as (Hval & t1 & c & ps & p & k & Ht & Hn & Hp & Hk & Hs).
  split; [done|]. exists t1, c, ps, p, k. rewrite Ht. read_trace.
  rewrite Hp, Hs, (take_S_r _ _ _ Hk), !app_nil_r. by rewrite app_assoc.
Qed.

(** C5.  When the first page fetched announces no next page, the fetch makes
    exactly one remote call and returns [nil, nil]. *)
Theorem single_page_single_call (fuel : nat) (d : plugin.QueryData) (w w1 : W)
    (q1 : Query) :
  (1 <= fuel)%nat ->
  client_Query w zero_query (initial_variables d) = (w1, q1, None) ->
  models.HasNextPage (info_of q1) = false ->
  let r := tableGitHubRepositoryIssueCommentList fuel d w in
  value r = Some (None, None) /\
  remote_calls (trace r) = [initial_variables d].
Proof.
  intros Hfuel H1 Hnext. destruct fuel as [|fuel]; [lia|].
  cbn zeta. unfold tableGitHubRepositoryIssueCommentList.
  rewrite loop_S, H1. cbn zeta. rewrite Hnext. cbn [negb].
  pose proof (range_local (nodes_of q1) w1) as (Hcalls & _ & _).
  destruct (value (CommentList_range (nodes_of q1) w1));
    read_trace; by rewrite Hcalls.
Qed.

(** C6.  Every remote call carries a page size between 1 and 100; a limit of
    zero or less is never the page size sent. *)
Theorem page_size_bounds (fuel : nat) (d : plugin.QueryData) (w : W) :
  Forall (fun v : gmap string githubv4.Value =>
            exists n : Z,
              v !! "pageSize" = Some (githubv4.VInt n) /\
              (1 <= n <= 100)%Z /\
              (forall l : Z, plugin.Limit (plugin.QueryContext_ d) = Some l ->
                             (l <= 0)%Z -> n <> l))
    (remote_calls (trace (tableGitHubRepositoryIssueCommentList fuel d w))).
Proof.
  unfold tableGitHubRepositoryIssueCommentList.
  eapply Forall_impl; [apply loop_frame|]. cbn. intros v Hv.
  destruct (initial_variables_lookup d) as (_ & _ & _ & Hsize & _).
  pose proof (adjustPageSize_bounds 100 (plugin.Limit (plugin.QueryContext_ d))
                ltac:(lia)) as Hb.
  exists (adjustPageSize 100 (plugin.Limit (plugin.QueryContext_ d))).
  rewrite Hv by done. rewrite Hsize. unfold githubv4.Int.
  rewrite int32_small by lia. split; [done|]. split; [done|]. lia.
Qed.

(** C9.  In every remote call of one request, each entry of the variables
    other than "cursor" is the one the request started with: the owner, the
    repository name, the issue number and the page size keep their initial
    values. *)
Theorem only_cursor_reassigned (fuel : nat) (d : plugin.QueryData) (w : W) :
  let quals := plugin.EqualsQuals d in
  let names := parseRepoFullName (proto.GetStringValue (quals !! "repository_full_name")) in
  Forall (fun v : gmap string githubv4.Value =>
            (forall key : string, key <> "cursor" -> v !! key = initial_variables d !! key) /\
            v !! "owner" = Some (githubv4.String names.1) /\
            v !! "name" = Some (githubv4.String names.2) /\
            v !! "issueNumber" =
              Some (githubv4.Int (proto.GetInt64Value (quals !! "number"))) /\
            v !! "pageSize" =
              Some (githubv4.Int (adjustPageSize 100 (plugin.Limit (plugin.QueryContext_ d)))))
    (remote_calls (trace (tableGitHubRepositoryIssueCommentList fuel d w))).
Proof.
  cbn zeta. unfold tableGitHubRepositoryIssueCommentList.
  eapply Forall_impl; [apply loop_frame|]. cbn. intros v Hv.
  destruct (initial_variables_lookup d) as (Ho & Hn & Hi & Hsize & _).
  split; [done|]. by rewrite !Hv.
Qed.

(** C10.  Whenever the list function returns, the result value is nil, on
    each of its three exit paths: a remote error (the error is returned next
    to the nil result), an early stop after a zero from [d.RowsRemaining],
    or a last page that announced no next page.  Rows are in the trace of
    [d.StreamListItem] calls only. *)
Theorem list_returns_nil (fuel : nat) (d : plugin.QueryData) (w : W)
    (res : option IssueComment) (err : option error) :
  let r := tableGitHubRepositoryIssueCommentList fuel d w in
  value r = Some (res, err) ->
  res = None /\
  ((exists e : error, err = Some e /\ e ∈ remote_errors (trace r)) \/
   (err = None /\ stop_seen (trace r) = true) \/
   (err = None /\ stop_seen (trace r) = false /\
    exists q : Query, last (replies (trace r)) = Some q /\
                      models.HasNextPage (info_of q) = false)).
Proof. cbn zeta. unfold tableGitHubRepositoryIssueCommentList. apply loop_exit. Qed.

(** While rows remain after every row of the page, the range runs to its
    end; a page without nodes asks nothing of the host. *)
Lemma range_runs_within (nodes : list IssueComment) (w : W) :
  (forall k : nat, (k < length nodes)%nat ->
     RowsRemaining (stream_all w (take (S k) nodes)) <> 0%Z) ->
  value (CommentList_range nodes w) = false.
Proof.
  revert w. induction nodes as [|c rest IH]; intros w Hrem; [done|].
  rewrite range_cons. cbn zeta.
  destruct (RowsRemaining (StreamListItem w c) =? 0)%Z eqn:Hz.
  - apply Z.eqb_eq in Hz. destruct (Hrem 0%nat); [cbn; lia|done].
  - read_trace. apply IH. intros k Hk. apply (Hrem (S k)). cbn. lia.
Qed.

(** A range that runs to its end consulted the host once per node. *)
Lemma range_false_checks (nodes : list IssueComment) (w : W) :
  value (CommentList_range nodes w) = false ->
  length (omap (fun e : Ev => match e with CallRowsRemaining n => Some n | _ => None end)
            (trace (CommentList_range nodes w))) = length nodes.
Proof.
  revert w. induction nodes as [|c rest IH]; intros w; [done|].
  rewrite range_cons. cbn zeta.
  destruct (RowsRemaining (StreamListItem w c) =? 0)%Z; [done|].
  read_trace. intros Hv. by rewrite (IH _ Hv).
Qed.

(** C7, as the code has it.  The loop has no cancellation check of its own:
    it consults [d.RowsRemaining] after each streamed row, and that is zero
    once the context is cancelled.  For any iteration whose remote call
    fetched a page:
    - if the context is found cancelled after a row of the page (the first
      row included, when the context was already cancelled as the page
      arrived), the hydrate returns at once with [nil, nil]: no error, no
      further row, no further remote call;
    - if the page is passed without a zero being seen -- as a page without
      nodes always is, with no call to the host at all -- and it announces a
      next page, the next remote call is issued, whether or not the context
      is cancelled, and if that call fails its error is what the hydrate
      returns;
    - an error the hydrate returns is always the error of a remote call. *)
Theorem cancellation_seen_only_after_rows (fuel : nat) (query q1 : Query)
    (variables : gmap string githubv4.Value) (w w1 : W) :
  (forall w' : W, ctx_cancelled w' = true -> RowsRemaining w' = 0%Z) ->
  client_Query w query variables = (w1, q1, None) ->
  (forall (pre post : list IssueComment) (c : IssueComment),
     nodes_of q1 = pre ++ c :: post ->
     (forall k : nat, (k < length pre)%nat ->
        RowsRemaining (stream_all w1 (take (S k) pre)) <> 0%Z) ->
     ctx_cancelled (StreamListItem (stream_all w1 pre) c) = true ->
     let r := CommentList_loop (S fuel) query variables w in
     value r = Some (None, None) /\
     remote_calls (trace r) = [variables] /\
     streamed (trace r) = pre ++ [c] /\
     world r = StreamListItem (stream_all w1 pre) c) /\
  ((forall k : nat, (k < length (nodes_of q1))%nat ->
      RowsRemaining (stream_all w1 (take (S k) (nodes_of q1))) <> 0%Z) ->
   models.HasNextPage (info_of q1) = true ->
   let page_trace := trace (CommentList_range (nodes_of q1) w1) in
   let w2 := stream_all w1 (nodes_of q1) in
   let next := <["cursor" := githubv4.NewString (models.EndCursor (info_of q1))]>
                 variables in
   let r := CommentList_loop (S (S fuel)) query variables w in
   streamed page_trace = nodes_of q1 /\
   length (omap (fun e : Ev => match e with CallRowsRemaining n => Some n | _ => None end)
             page_trace) = length (nodes_of q1) /\
   exists (w3 : W) (q2 : Query) (err2 : option error) (rest : list Ev),
     client_Query w2 q1 next = (w3, q2, err2) /\
     trace r =
       [CallQuery variables q1 None; LogDebug (RateLimit q1)] ++ page_trace ++
       CallQuery next q2 err2 :: LogDebug (RateLimit q2) :: rest /\
     (forall e : error, err2 = Some e ->
        value r = Some (None, Some e) /\ remote_calls (trace r) = [variables; next])) /\
  (forall (n : nat) (res : option IssueComment) (e : error),
     value (CommentList_loop n query variables w) = Some (res, Some e) ->
     e ∈ remote_errors (trace (CommentList_loop n query variables w))).
Proof.
  intros Hsdk H1. split; [|split].
  - intros pre post c Hnodes Hrem Hcancel. cbn zeta.
    rewrite loop_S, H1. cbn zeta. rewrite Hnodes.
    pose proof (range_runs_within _ _ Hrem) as Hv.
    destruct (range_false _ _ Hv) as (Hs & Hn & _).
    pose proof (range_local pre w1) as (Hcalls & _ & _).
    rewrite (range_stops pre post c w1 Hn (Hsdk _ Hcancel)).
    read_trace. by rewrite Hs, Hcalls.
  - intros Hrem Hnext. cbn zeta.
    pose proof (range_runs_within _ _ Hrem) as Hv.
    destruct (range_false _ _ Hv) as (Hs & _ & Hw).
    pose proof (range_local (nodes_of q1) w1) as (Hcalls & _ & _).
    split; [done|]. split; [by apply range_false_checks|].
    rewrite loop_S, H1. cbn zeta. rewrite Hv, Hnext. cbn [negb].
    rewrite loop_S, Hw.
    destruct (client_Query (stream_all w1 (nodes_of q1)) q1 _) as [[w3 q2] err2].
    exists w3, q2, err2. cbn zeta.
    destruct err2 as [e2|].
    { eexists. split; [done|]. read_trace. split; [done|].
      intros e [= <-]. by rewrite Hcalls. }
    destruct (value (CommentList_range (nodes_of q2) w3)).
    { eexists. split; [done|]. read_trace. split; [done|]. by intros e. }
    destruct (negb (models.HasNextPage (info_of q2))).
    { eexists. split; [done|]. read_trace. split; [done|]. by intros e. }
    eexists. split; [done|]. read_trace. split; [done|]. by intros e.
  - intros n res e Hval.
    destruct (loop_exit _ _ _ _ _ _ Hval) as (_ & [(e' & [= <-] & Hin)|[[? _]|[? _]]]);
      [done|done|done].
Qed.

(** ** The claim about tableGitHubIssueComment *)

Lemma host_list_call_eq (t : Table IssueComment RateLimitT W) (fuel : nat) (d : plugin.QueryData) (w : W) :
  host_list_call t fuel d w =
    let r := Hydrate (List_ t) fuel d w in
    (match value r with
     | None => None
     | Some (_, None) => Some None
     | Some (_, Some e) =>
         if ShouldIgnoreError (List_ t) e then Some None else Some (Some e)
     end, world r, trace r).
Proof.
  unfold host_list_call, bind, ret.
  destruct (Hydrate (List_ t) fuel d w) as [[[[res [e|]]|] w1] t1];
    read_trace; rewrite ?app_nil_r; try done.
  by destruct (ShouldIgnoreError (List_ t) e); rewrite app_nil_r.
Qed.

(** C8.  When the first remote call fails with an error that
    [isNotFoundError] with the code "404" accepts, the caller of the table
    sees no error and no row. *)
Theorem not_found_is_empty_result (fuel : nat) (d : plugin.QueryData) (w w1 : W)
    (q1 : Query) (e : error) :
  (1 <= fuel)%nat ->
  client_Query w zero_query (initial_variables d) = (w1, q1, Some e) ->
  isNotFoundError ["404"] e = true ->
  let r := host_list_call tableGitHubIssueComment fuel d w in
  value r = Some None /\ streamed (trace r) = [].
Proof.
  intros Hfuel H1 H404. destruct fuel as [|fuel]; [lia|].
  cbn zeta. rewrite host_list_call_eq.
  change (Hydrate (List_ tableGitHubIssueComment) (S fuel) d w)
    with (CommentList_loop (S fuel) zero_query (initial_variables d) w).
  change (ShouldIgnoreError (List_ tableGitHubIssueComment))
    with (isNotFoundError ["404"]).
  rewrite loop_S, H1. cbn zeta. read_trace. by rewrite H404.
Qed.

(** * Further properties of the page loop *)

Lemma checks_app (t1 t2 : list Ev) : checks (t1 ++ t2) = checks t1 ++ checks t2.
Proof. apply omap_app. Qed.

Lemma host_calls_app (t1 t2 : list Ev) :
  host_calls (t1 ++ t2) = host_calls t1 ++ host_calls t2.
Proof. apply omap_app. Qed.

Lemma structs_app (t1 t2 : list Ev) : structs (t1 ++ t2) = structs t1 ++ structs t2.
Proof. apply omap_app. Qed.

Lemma debug_logs_app (t1 t2 : list Ev) :
  debug_logs (t1 ++ t2) = debug_logs t1 ++ debug_logs t2.
Proof. apply omap_app. Qed.

Lemma error_logs_app (t1 t2 : list Ev) :
  error_logs (t1 ++ t2) = error_logs t1 ++ error_logs t2.
Proof. apply omap_app. Qed.

Ltac read_more :=
  rewrite ?value_triple, ?world_triple, ?trace_triple, ?streamed_app,
    ?remote_calls_app, ?remote_errors_app, ?pages_app, ?replies_app,
    ?stop_seen_app, ?checks_app, ?host_calls_app, ?structs_app,
    ?debug_logs_app, ?error_logs_app;
  cbn.

(** ** The chain of cursors *)

Lemma loop_chain (fuel : nat) (query : Query)
    (variables : gmap string githubv4.Value) (w : W) :
  let tr := trace (CommentList_loop fuel query variables w) in
  (forall v', remote_calls tr !! 0%nat = Some v' -> v' = variables) /\
  (forall (i : nat) v', remote_calls tr !! S i = Some v' ->
     exists q' : Query,
       replies tr !! i = Some q' /\
       models.HasNextPage (info_of q') = true /\
       v' !! "cursor" = Some (githubv4.NewString (models.EndCursor (info_of q')))).
Proof.
  cbn zeta. revert query variables w.
  induction fuel as [|fuel IH]; intros query variables w.
  { rewrite loop_O. by read_more. }
  rewrite loop_S.
  destruct (client_Query w query variables) as [[w1 q1] [e'|]]; cbn zeta.
  { read_more. split; [congruence|]. by intros i v'. }
  pose proof (range_local (nodes_of q1) w1) as (Hc & _ & _).
  pose proof (range_no_replies (nodes_of q1) w1) as Hrep.
  destruct (value (CommentList_range (nodes_of q1) w1)).
  { read_more. rewrite Hc. split; [cbn; congruence|]. by intros i v'. }
  destruct (models.HasNextPage (info_of q1)) eqn:Hnext; cbn [negb].
  2:{ read_more. rewrite Hc. split; [cbn; congruence|]. by intros i v'. }
  read_more. rewrite Hc, Hrep. cbn. split; [congruence|].
  match goal with |- context [CommentList_loop fuel ?q ?v ?w'] =>
    destruct (IH q v w') as [IH0 IHS] end.
  intros [|i] v' Hv'; cbn in Hv' |- *.
  - rewrite (IH0 _ Hv'). exists q1. split; [done|]. split; [done|].
    apply lookup_insert_eq.
  - apply IHS, Hv'.
Qed.

(** X1.  Every remote call after the first is made because the page before
    it announced a next page, and its cursor is the end cursor of that page. *)
Theorem cursor_chain (fuel : nat) (d : plugin.QueryData) (w : W) (i : nat)
    (v' : gmap string githubv4.Value) :
  let tr := trace (tableGitHubRepositoryIssueCommentList fuel d w) in
  remote_calls tr !! S i = Some v' ->
  exists q' : Query,
    replies tr !! i = Some q' /\
    models.HasNextPage (info_of q') = true /\
    v' !! "cursor" = Some (githubv4.NewString (models.EndCursor (info_of q'))).
Proof.
  cbn zeta. unfold tableGitHubRepositoryIssueCommentList.
  apply (proj2 (loop_chain fuel zero_query (initial_variables d) w)).
Qed.

(** ** While the loop is running *)

Lemma loop_running (fuel : nat) (query : Query) variables (w : W) :
  let r := CommentList_loop fuel query variables w in
  value r = None ->
  length (remote_calls (trace r)) = fuel /\
  remote_errors (trace r) = [] /\
  stop_seen (trace r) = false /\
  length (replies (trace r)) = fuel /\
  Forall (fun q : Query => models.HasNextPage (info_of q) = true) (replies (trace r)).
Proof.
  cbn zeta. revert query variables w.
  induction fuel as [|fuel IH]; intros query variables w.
  { rewrite loop_O. by read_more. }
  rewrite loop_S.
  destruct (client_Query w query variables) as [[w1 q1] [e'|]]; cbn zeta.
  { by read_more. }
  pose proof (range_local (nodes_of q1) w1) as (Hc & He & _).
  pose proof (range_no_replies (nodes_of q1) w1) as Hrep.
  destruct (value (CommentList_range (nodes_of q1) w1)) eqn:Hv.
  { by read_more. }
  destruct (range_false _ _ Hv) as (_ & Hn & _).
  destruct (models.HasNextPage (info_of q1)) eqn:Hnext; cbn [negb].
  2:{ by read_more. }
  read_more. rewrite Hc, He, Hn, Hrep. cbn. intros Hval.
  destruct (IH _ _ _ Hval) as (H1 & H2 & H3 & H4 & H5).
  rewrite H1, H2, H3, H4. repeat split; try done. by constructor.
Qed.

(** X2.  The loop is still running after [fuel] remote calls only if every
    one of them succeeded, every page fetched announced a next page, and
    [d.RowsRemaining] was never zero. *)
Theorem running_only_while_next_page (fuel : nat) (d : plugin.QueryData) (w : W) :
  let r := tableGitHubRepositoryIssueCommentList fuel d w in
  value r = None ->
  length (remote_calls (trace r)) = fuel /\
  remote_errors (trace r) = [] /\
  stop_seen (trace r) = false /\
  length (replies (trace r)) = fuel /\
  Forall (fun q : Query => models.HasNextPage (info_of q) = true) (replies (trace r)).
Proof. cbn zeta. unfold tableGitHubRepositoryIssueCommentList. apply loop_running. Qed.

(** ** One check per row *)

Lemma range_host (nodes : list IssueComment) (w : W) :
  let tr := trace (CommentList_range nodes w) in
  length (checks tr) = length (streamed tr) /\
  host_calls tr = flat_map row_then_check (zip (streamed tr) (checks tr)).
Proof.
  cbn zeta. revert w. induction nodes as [|c rest IH]; intros w; [done|].
  rewrite range_cons. cbn zeta.
  destruct (RowsRemaining (StreamListItem w c) =? 0)%Z; [done|].
  read_more. destruct (IH (StreamListItem w c)) as [Hl Hh].
  by rewrite Hl, Hh.
Qed.

Lemma loop_host (fuel : nat) (query : Query) variables (w : W) :
  let tr := trace (CommentList_loop fuel query variables w) in
  length (checks tr) = length (streamed tr) /\
  host_calls tr = flat_map row_then_check (zip (streamed tr) (checks tr)).
Proof.
  cbn zeta. revert query variables w.
  induction fuel as [|fuel IH]; intros query variables w.
  { rewrite loop_O. by read_more. }
  rewrite loop_S.
  destruct (client_Query w query variables) as [[w1 q1] [e'|]]; cbn zeta.
  { by read_more. }
  destruct (range_host (nodes_of q1) w1) as [Hl Hh].
  destruct (value (CommentList_range (nodes_of q1) w1)); [by read_more|].
  destruct (negb (models.HasNextPage (info_of q1))); [by read_more|].
  read_more.
  match goal with |- context [CommentList_loop fuel ?q ?v ?w'] =>
    destruct (IH q v w') as [Hl' Hh'] end.
  rewrite !length_app, Hl, Hl'. split; [done|].
  rewrite zip_with_app by done. rewrite flat_map_app. by rewrite Hh, Hh'.
Qed.

(** X3.  The host is called in pairs: each streamed row is followed by one
    call of [d.RowsRemaining], and [d.RowsRemaining] is called at no other
    time -- not before the first remote call, and not between two pages
    when a page has no nodes. *)
Theorem one_check_per_row (fuel : nat) (d : plugin.QueryData) (w : W) :
  let tr := trace (tableGitHubRepositoryIssueCommentList fuel d w) in
  length (checks tr) = length (streamed tr) /\
  host_calls tr = flat_map row_then_check (zip (streamed tr) (checks tr)).
Proof. cbn zeta. unfold tableGitHubRepositoryIssueCommentList. apply loop_host. Qed.

(** ** Before the first check *)

(** X4.  The hydrate never looks at the budget or the context before it
    calls the remote: whatever the world, its first two events are the
    remote call with the initial variables (cursor nil) and the debug log
    of the rate limit. *)
Theorem first_call_unconditional (fuel : nat) (d : plugin.QueryData) (w : W) :
  (1 <= fuel)%nat ->
  exists (w1 : W) (q : Query) (err : option error) (rest : list Ev),
    client_Query w zero_query (initial_variables d) = (w1, q, err) /\
    trace (tableGitHubRepositoryIssueCommentList fuel d w) =
      CallQuery (initial_variables d) q err :: LogDebug (RateLimit q) :: rest /\
    initial_variables d !! "cursor" = Some (githubv4.VStringPtr None).
Proof.
  intros Hfuel. destruct fuel as [|fuel]; [lia|].
  destruct (initial_variables_lookup d) as (_ & _ & _ & _ & Hcur).
  unfold tableGitHubRepositoryIssueCommentList. rewrite loop_S.
  destruct (client_Query w zero_query (initial_variables d)) as [[w1 q1] err].
  exists w1, q1, err. cbn zeta.
  destruct err as [e|]; [by eexists|].
  destruct (value (CommentList_range (nodes_of q1) w1)); [by eexists|].
  destruct (negb (models.HasNextPage (info_of q1))); by eexists.
Qed.

(** X5.  The check comes after the row: when the first page has a node and
    no rows remain once it is streamed (the limit was already reached, or
    the context already cancelled), the hydrate has still fetched the page
    and streamed that one row; it then returns [nil, nil] and the rest of
    the page is dropped. *)
Theorem first_row_before_check (fuel : nat) (d : plugin.QueryData) (w w1 : W)
    (q1 : Query) (c : IssueComment) (rest : list IssueComment) :
  (1 <= fuel)%nat ->
  client_Query w zero_query (initial_variables d) = (w1, q1, None) ->
  nodes_of q1 = c :: rest ->
  RowsRemaining (StreamListItem w1 c) = 0%Z ->
  let r := tableGitHubRepositoryIssueCommentList fuel d w in
  value r = Some (None, None) /\
  streamed (trace r) = [c] /\
  remote_calls (trace r) = [initial_variables d] /\
  world r = StreamListItem w1 c.
Proof.
  intros Hfuel H1 Hnodes Hz. destruct fuel as [|fuel]; [lia|].
  cbn zeta. unfold tableGitHubRepositoryIssueCommentList.
  rewrite loop_S, H1. cbn zeta. rewrite Hnodes, range_cons. cbn zeta.
  rewrite Hz. by read_more.
Qed.

(** ** What is logged *)

Lemma range_no_logs (nodes : list IssueComment) (w : W) :
  structs (trace (CommentList_range nodes w)) = [] /\
  debug_logs (trace (CommentList_range nodes w)) = [] /\
  error_logs (trace (CommentList_range nodes w)) = [].
Proof.
  revert w. induction nodes as [|c rest IH]; intros w; [done|].
  rewrite range_cons. cbn zeta.
  destruct (RowsRemaining (StreamListItem w c) =? 0)%Z; [done|].
  read_more. apply IH.
Qed.

Lemma loop_logs (fuel : nat) (query : Query) variables (w : W) :
  let tr := trace (CommentList_loop fuel query variables w) in
  debug_logs tr = map RateLimit (structs tr) /\
  error_logs tr = remote_errors tr /\
  (length (remote_errors tr) <= 1)%nat.
Proof.
  cbn zeta. revert query variables w.
  induction fuel as [|fuel IH]; intros query variables w.
  { rewrite loop_O. read_more. repeat split; [done..|lia]. }
  rewrite loop_S.
  destruct (client_Query w query variables) as [[w1 q1] [e'|]]; cbn zeta.
  { by read_more. }
  pose proof (range_local (nodes_of q1) w1) as (_ & He & _).
  destruct (range_no_logs (nodes_of q1) w1) as (Hs & Hd & Hl).
  destruct (value (CommentList_range (nodes_of q1) w1)).
  { read_more. rewrite He, Hs, Hd, Hl. cbn. repeat split; [done..|lia]. }
  destruct (negb (models.HasNextPage (info_of q1))).
  { read_more. rewrite He, Hs, Hd, Hl. cbn. repeat split; [done..|lia]. }
  read_more. rewrite He, Hs, Hd, Hl. cbn.
  match goal with |- context [CommentList_loop fuel ?q ?v ?w'] =>
    destruct (IH q v w') as (H1 & H2 & H3) end.
  by rewrite H1, H2.
Qed.

(** X6.  Logging follows the remote calls one to one: after every call,
    failed or not, the rate limit of the query struct as the call left it is
    logged at debug level; the errors logged are exactly the errors the
    remote calls returned, and there is at most one. *)
Theorem logs_follow_calls (fuel : nat) (d : plugin.QueryData) (w : W) :
  let tr := trace (tableGitHubRepositoryIssueCommentList fuel d w) in
  debug_logs tr = map RateLimit (structs tr) /\
  error_logs tr = remote_errors tr /\
  (length (remote_errors tr) <= 1)%nat.
Proof. cbn zeta. unfold tableGitHubRepositoryIssueCommentList. apply loop_logs. Qed.

(** ** The issue number on the wire *)

Lemma int32_range (z : Z) : (- 2 ^ 31 <= int32 z < 2 ^ 31)%Z.
Proof.
  unfold int32. pose proof (Z.mod_pos_bound (z + 2 ^ 31) (2 ^ 32)). lia.
Qed.

Lemma int32_congruent (z : Z) : ((int32 z - z) mod 2 ^ 32 = 0)%Z.
Proof.
  unfold int32.
  pose proof (Z.div_mod (z + 2 ^ 31) (2 ^ 32) ltac:(lia)) as Hdm.
  replace ((z + 2 ^ 31) mod 2 ^ 32 - 2 ^ 31 - z)%Z
    with (- ((z + 2 ^ 31) / 2 ^ 32) * 2 ^ 32)%Z by lia.
  apply Z_mod_mult.
Qed.

(** X8.  The issue number is narrowed to 32 bits before it is sent: every
    remote call carries a number in the int32 range that is congruent to the
    qualifier's value modulo 2^32.  A value in the range is sent as it is;
    a value outside is not rejected but wrapped. *)
Theorem issue_number_narrowed (fuel : nat) (d : plugin.QueryData) (w : W) :
  let number := proto.GetInt64Value (plugin.EqualsQuals d !! "number") in
  Forall (fun v : gmap string githubv4.Value =>
            exists n : Z,
              v !! "issueNumber" = Some (githubv4.VInt n) /\
              (- 2 ^ 31 <= n < 2 ^ 31)%Z /\
              ((n - number) mod 2 ^ 32 = 0)%Z /\
              ((- 2 ^ 31 <= number < 2 ^ 31)%Z -> n = number))
    (remote_calls (trace (tableGitHubRepositoryIssueCommentList fuel d w))).
Proof.
  cbn zeta. unfold tableGitHubRepositoryIssueCommentList.
  eapply Forall_impl; [apply loop_frame|]. cbn. intros v Hv.
  destruct (initial_variables_lookup d) as (_ & _ & Hnum & _ & _).
  exists (int32 (proto.GetInt64Value (plugin.EqualsQuals d !! "number"))).
  rewrite Hv by done. rewrite Hnum.
  split; [done|]. split; [apply int32_range|]. split; [apply int32_congruent|].
  apply int32_small.
Qed.

(** * The column list *)

(** X9.  No two columns of the table have the same name. *)
Theorem column_names_distinct :
  NoDup (map schema.Name schema.sharedCommentsColumns).
Proof. apply (bool_decide_unpack _). vm_compute. exact I. Qed.

(** X10.  The columns copied from a qualifier are, in order, the key columns
    of the table, each under the name of its qualifier and with nothing else
    in its transform chain. *)
Theorem qual_columns_are_key_columns :
  omap schema.qual_of schema.sharedCommentsColumns =
    KeyColumns (List_ tableGitHubIssueComment) /\
  Forall (fun c : schema.Column =>
            forall q : string,
              schema.qual_of c = Some q ->
              q = schema.Name c /\ schema.Transform_ c = [schema.FromQual q])
    schema.sharedCommentsColumns.
Proof.
  split; [reflexivity|].
  unfold schema.sharedCommentsColumns.
  repeat (constructor; [cbn; intros q [= <-] || (intros q Hq; discriminate Hq); done|]).
  constructor.
Qed.

(** X11.  Every other column reads one field of the comment and, failing
    that, the same field under "Node.": its chain starts with
    [FromField] of exactly the two paths [f] and ["Node." ++ f]. *)
Theorem field_columns_fall_back_to_node :
  Forall (fun c : schema.Column =>
            schema.qual_of c = None ->
            exists (f : string) (rest : list schema.TransformCall),
              schema.Transform_ c =
                schema.FromField [f; String.append "Node." f] :: rest)
    schema.sharedCommentsColumns.
Proof.
  unfold schema.sharedCommentsColumns.
  repeat (constructor;
          [cbn; intros Hq; first [discriminate Hq | eexists _, _; reflexivity]|]).
  constructor.
Qed.

(** X12.  Zero values and timestamps: a column is of type TIMESTAMP exactly
    when its chain ends in [.NullIfZero().Transform(convertTimestamp)], and
    every JSON column ends in [.NullIfZero()]; no other column has either
    call. *)
Theorem null_and_timestamp_handling :
  Forall (fun c : schema.Column =>
            exists first : schema.TransformCall,
              schema.Transform_ c =
                first ::
                match schema.Type_ c with
                | schema.ColumnType_TIMESTAMP =>
                    [schema.NullIfZero; schema.Transform schema.convertTimestamp]
                | schema.ColumnType_JSON => [schema.NullIfZero]
                | _ => []
                end)
    schema.sharedCommentsColumns.
Proof.
  unfold schema.sharedCommentsColumns.
  repeat (constructor; [cbn; eexists; reflexivity|]).
  constructor.
Qed.

End Properties.

(** * The hydrate run against the scripted remote *)

Section Runs.

Import Mock.

Abbreviation run fuel lim srv abort :=
  (tableGitHubRepositoryIssueCommentList fuel (request lim) (start srv lim abort)).

Example run_two_pages :
  value (run 5%nat None two_pages None) = Some (None, None) /\
  ids (streamed (trace (run 5%nat None two_pages None))) = [1; 2; 3; 4; 5]%Z /\
  length (remote_calls (trace (run 5%nat None two_pages None))) = 2%nat.
Proof. vm_compute. done. Qed.

Example run_limit_2 :
  value (run 5%nat (Some 2%Z) two_pages None) = Some (None, None) /\
  ids (streamed (trace (run 5%nat (Some 2%Z) two_pages None))) = [1; 2]%Z /\
  length (remote_calls (trace (run 5%nat (Some 2%Z) two_pages None))) = 1%nat.
Proof. vm_compute. done. Qed.

Example run_second_fails :
  value (run 5%nat None second_fails None) = Some (None, Some "502 Bad Gateway") /\
  ids (streamed (trace (run 5%nat None second_fails None))) = [1; 2; 3]%Z /\
  length (remote_calls (trace (run 5%nat None second_fails None))) = 2%nat.
Proof. vm_compute. done. Qed.

Example run_out_of_fuel :
  value (run 1%nat None two_pages None) = None /\
  ids (streamed (trace (run 1%nat None two_pages None))) = [1; 2; 3]%Z.
Proof. vm_compute. done. Qed.

(** ** The scripted host *)

Lemma stream_all_fields (w : World) (items : list Comment) :
  limit (stream_all w items) = limit w /\
  abort_after (stream_all w items) = abort_after w /\
  server (stream_all w items) = server w.
Proof.
  revert w. induction items as [|c items IH]; intros w; [done|].
  cbn. destruct (IH (Stream w c)) as (Hl & Ha & Hs).
  unfold stream_all in *. cbn in *. by rewrite Hl, Ha, Hs.
Qed.

(** Without a limit and without an abort, rows always remain. *)
Lemma unlimited_remaining (w : World) (items : list Comment) :
  limit w = None -> abort_after w = None ->
  RowsRemaining (stream_all w items) <> 0%Z.
Proof.
  intros Hl Ha. destruct (stream_all_fields w items) as (Hl' & Ha' & _).
  cbn. unfold Remaining, cancelled. by rewrite Ha', Ha, Hl', Hl.
Qed.

(** On a cancelled context no rows remain. *)
Lemma cancelled_remaining (w : World) :
  ctx_cancelled w = true -> RowsRemaining w = 0%Z.
Proof. cbn. unfold Remaining. by intros ->. Qed.

(** The remote answers by the cursor alone. *)
Lemma Query_by_cursor (w : World) (q : QueryT Comment Z)
    (v : gmap string githubv4.Value) (c : option string) (p : CommentsT Comment) :
  cancelled w = false ->
  v !! "cursor" = Some (githubv4.VStringPtr c) ->
  server w !! c = Some (inr p) ->
  client_Query w q v = (w, filled p, None).
Proof. intros Hc Hv Hs. cbn. unfold Query. by rewrite Hc, Hv, Hs. Qed.

(** ** The theorems at concrete requests *)

Lemma two_pages_two_calls_witness :
  let r := run 2%nat None two_pages None in
  value r = Some (None, None) /\
  (exists v0 v1 : gmap string githubv4.Value,
     remote_calls (trace r) = [v0; v1] /\
     v0 !! "cursor" = Some (githubv4.VStringPtr None) /\
     v1 !! "cursor" = Some (githubv4.VStringPtr (Some "c1"))) /\
  streamed (trace r) = Nodes page1 ++ Nodes page2.
Proof.
  apply (two_pages_two_calls 2 (request None) (start two_pages None None)
           (start two_pages None None)
           (stream_all (start two_pages None None) (Nodes page1))
           (filled page1) (filled page2) "c1").
  - lia.
  - intros q v Hv.
    apply (Query_by_cursor _ q v None page1); [reflexivity | exact Hv | vm_compute; reflexivity].
  - reflexivity.
  - reflexivity.
  - intros q v Hv.
    apply (Query_by_cursor _ q v (Some "c1") page2);
      [reflexivity | exact Hv | vm_compute; reflexivity].
  - reflexivity.
  - intros k. by apply unlimited_remaining.
  - intros k. by apply unlimited_remaining.
Defined.

Lemma remote_error_aborts_witness :
  "502 Bad Gateway" ∈ remote_errors (trace (run 5%nat None second_fails None)) /\
  value (run 5%nat None second_fails None) = Some (None, Some "502 Bad Gateway").
Proof.
  assert ("502 Bad Gateway" ∈ remote_errors (trace (run 5%nat None second_fails None)))
    as Hin.
  { assert (remote_errors (trace (run 5%nat None second_fails None)) = ["502 Bad Gateway"])
      as -> by (vm_compute; reflexivity).
    apply list_elem_of_here. }
  split; [exact Hin|].
  exact (proj1 (remote_error_aborts 5 (request None) (start second_fails None None)
                  "502 Bad Gateway" Hin)).
Defined.

Lemma stop_ends_fetch_witness :
  stop_seen (trace (run 5%nat (Some 2%Z) two_pages None)) = true /\
  value (run 5%nat (Some 2%Z) two_pages None) = Some (None, None).
Proof.
  assert (stop_seen (trace (run 5%nat (Some 2%Z) two_pages None)) = true) as Hst
    by (vm_compute; reflexivity).
  split; [exact Hst|].
  exact (proj1 (stop_ends_fetch 5 (request (Some 2%Z))
                  (start two_pages (Some 2%Z) None) Hst)).
Defined.

Lemma single_page_single_call_witness :
  let r := run 3%nat None one_page None in
  value r = Some (None, None) /\
  remote_calls (trace r) = [initial_variables (request None)].
Proof.
  apply (single_page_single_call 3 (request None) (start one_page None None)
           (start one_page None None) (filled page2)).
  - lia.
  - vm_compute. reflexivity.
  - reflexivity.
Defined.

Lemma list_returns_nil_witness :
  value (run 5%nat None second_fails None) = Some (None, Some "502 Bad Gateway") /\
  @None Comment = None.
Proof.
  assert (value (run 5%nat None second_fails None) = Some (None, Some "502 Bad Gateway"))
    as Hv by (vm_compute; reflexivity).
  split; [exact Hv|].
  exact (proj1 (list_returns_nil 5 (request None) (start second_fails None None) None
                  (Some "502 Bad Gateway") Hv)).
Defined.

(** The theorem at two requests.  In the first the caller aborts once it
    holds two rows: the fetch of the first page ends after its second row.
    In the second the deadline passes during the first call and the page
    has no nodes: the second call is issued and its error is returned. *)
Lemma cancellation_seen_only_after_rows_witness :
  (let r := CommentList_loop 1 zero_query (initial_variables (request None))
              (start two_pages None (Some 2%nat)) in
   value r = Some (None, None) /\
   remote_calls (trace r) = [initial_variables (request None)] /\
   streamed (trace r) = [comment 1; comment 2]) /\
  (let r := CommentList_loop (RT := runtime_deadline) 2 (zero_query (RT := runtime_deadline))
              (initial_variables (RT := runtime_deadline) (request None))
              (start empty_then_page None None) in
   ctx_cancelled (Runtime := runtime_deadline)
     (cancel_now (start empty_then_page None None)) = true /\
   value r = Some (None, Some "context canceled") /\
   length (remote_calls (trace r)) = 2%nat).
Proof.
  split.
  - assert (client_Query (start two_pages None (Some 2%nat)) zero_query
              (initial_variables (request None)) =
            (start two_pages None (Some 2%nat), filled page1, None)) as H1
      by (vm_compute; reflexivity).
    destruct (cancellation_seen_only_after_rows 0 zero_query (filled page1)
                (initial_variables (request None))
                (start two_pages None (Some 2%nat)) (start two_pages None (Some 2%nat))
                cancelled_remaining H1)
      as (Hrow & _ & _).
    destruct (Hrow [comment 1] [comment 3] (comment 2)) as (Hv & Hc & Hs & _).
    + reflexivity.
    + intros [|k] Hk; [vm_compute; discriminate | cbn in Hk; lia].
    + reflexivity.
    + exact (conj Hv (conj Hc Hs)).
  - assert (client_Query (Runtime := runtime_deadline)
              (start empty_then_page None None) (zero_query (RT := runtime_deadline))
              (initial_variables (RT := runtime_deadline) (request None)) =
            (cancel_now (start empty_then_page None None), filled page0, None)) as H1
      by (vm_compute; reflexivity).
    destruct (cancellation_seen_only_after_rows (RT := runtime_deadline)
                0 (zero_query (RT := runtime_deadline)) (filled page0)
                (initial_variables (RT := runtime_deadline) (request None))
                (start empty_then_page None None)
                (cancel_now (start empty_then_page None None))
                cancelled_remaining H1)
      as (_ & Hnext & _).
    destruct Hnext as (_ & _ & w3 & q2 & err2 & rest & Hq & _ & Herr).
    + intros k Hk. cbn in Hk. lia.
    + reflexivity.
    + assert (err2 = Some "context canceled") as Herr2.
      { vm_compute in Hq. congruence. }
      destruct (Herr _ Herr2) as [Hv Hc].
      split; [reflexivity|]. split; [exact Hv|]. by rewrite Hc.
Defined.

Lemma not_found_is_empty_result_witness :
  let r := host_list_call tableGitHubIssueComment 5 (request None)
             (start no_repository None None) in
  value r = Some None /\ streamed (trace r) = [].
Proof.
  apply (not_found_is_empty_result 5 (request None) (start no_repository None None)
           (start no_repository None None) zero_query "404 Not Found").
  - lia.
  - vm_compute. reflexivity.
  - reflexivity.
Defined.

(** The spec's sentence on cancellation fails.  The first page has no nodes
    and announces a next page, and the deadline of the context passes while
    that page is fetched.  The hydrate (the loop from [zero_query] and the
    initial variables) consults nothing between the two fetches and issues
    the second remote call on the cancelled context. *)
Lemma cancellation_not_checked_between_fetches :
  ~ spec_cancellation_between_fetches (RT := runtime_deadline) 5
      (zero_query (RT := runtime_deadline))
      (initial_variables (RT := runtime_deadline) (request None))
      (start empty_then_page None None).
Proof.
  unfold spec_cancellation_between_fetches. intros Hclaim.
  destruct (Hclaim ltac:(lia) (cancel_now (start empty_then_page None None))
              (filled page0))
    as [Hcalls _].
  - vm_compute. reflexivity.
  - intros k Hk. cbn in Hk. lia.
  - reflexivity.
  - reflexivity.
  - apply (f_equal length) in Hcalls. vm_compute in Hcalls. discriminate Hcalls.
Qed.

Example run_deadline_on_empty_page :
  let r := tableGitHubRepositoryIssueCommentList (RT := runtime_deadline) 5
             (request None) (start empty_then_page None None) in
  length (remote_calls (trace r)) = 2%nat /\
  streamed (trace r) = [] /\
  checks (trace r) = [] /\
  value r = Some (None, Some "context canceled").
Proof. vm_compute. done. Qed.

(** ** The further properties at concrete requests *)

Lemma cursor_chain_witness :
  let tr := trace (run 5%nat None two_pages None) in
  let v' := <["cursor" := githubv4.NewString "c1"]> (initial_variables (request None)) in
  remote_calls tr !! 1%nat = Some v' /\
  exists q' : QueryT Comment Z,
    replies tr !! 0%nat = Some q' /\
    models.HasNextPage (PageInfo (Comments (Issue (Repository q')))) = true /\
    v' !! "cursor" =
      Some (githubv4.NewString
              (models.EndCursor (PageInfo (Comments (Issue (Repository q')))))).
Proof.
  cbn zeta.
  assert (remote_calls (trace (run 5%nat None two_pages None)) !! 1%nat =
          Some (<["cursor" := githubv4.NewString "c1"]> (initial_variables (request None))))
    as Hcall by (vm_compute; reflexivity).
  split; [exact Hcall|].
  exact (cursor_chain 5 (request None) (start two_pages None None) 0 _ Hcall).
Defined.

Lemma running_only_while_next_page_witness :
  let r := run 1%nat None two_pages None in
  value r = None /\
  length (remote_calls (trace r)) = 1%nat /\
  remote_errors (trace r) = [] /\
  stop_seen (trace r) = false.
Proof.
  cbn zeta.
  assert (value (run 1%nat None two_pages None) = None) as Hv
    by (vm_compute; reflexivity).
  split; [exact Hv|].
  destruct (running_only_while_next_page 1 (request None) (start two_pages None None) Hv)
    as (H1 & H2 & H3 & _).
  exact (conj H1 (conj H2 H3)).
Defined.

(** A query with LIMIT 0 still calls the remote once. *)
Lemma first_call_unconditional_witness :
  exists (w1 : World) (q : QueryT Comment Z) (err : option error)
         (rest : list (Event Comment Z)),
    client_Query (start two_pages (Some 0%Z) None) zero_query
      (initial_variables (request (Some 0%Z))) = (w1, q, err) /\
    trace (run 5%nat (Some 0%Z) two_pages None) =
      CallQuery (initial_variables (request (Some 0%Z))) q err
        :: LogDebug (RateLimit q) :: rest /\
    initial_variables (request (Some 0%Z)) !! "cursor" = Some (githubv4.VStringPtr None).
Proof.
  apply (first_call_unconditional 5 (request (Some 0%Z)) (start two_pages (Some 0%Z) None)).
  lia.
Defined.

(** ... and streams the first row of the first page. *)
Lemma first_row_before_check_witness :
  let r := run 5%nat (Some 0%Z) two_pages None in
  value r = Some (None, None) /\
  streamed (trace r) = [comment 1] /\
  remote_calls (trace r) = [initial_variables (request (Some 0%Z))] /\
  world r = StreamListItem (start two_pages (Some 0%Z) None) (comment 1).
Proof.
  apply (first_row_before_check 5 (request (Some 0%Z)) (start two_pages (Some 0%Z) None)
           (start two_pages (Some 0%Z) None) (filled page1) (comment 1)
           [comment 2; comment 3]).
  - lia.
  - vm_compute. reflexivity.
  - reflexivity.
  - reflexivity.
Defined.

(** An issue number of 2^32 + 7 is sent as 7. *)
Example run_wrapped_issue_number :
  let d := {| plugin.EqualsQuals :=
                <["repository_full_name" := proto.StringValue "turbot/steampipe"]>
                (<["number" := proto.Int64Value 4294967303]> ∅);
              plugin.QueryContext_ := {| plugin.Limit := None |} |} in
  initial_variables (RT := runtime) d !! "issueNumber" = Some (githubv4.VInt 7).
Proof. vm_compute. reflexivity. Qed.

End Runs.
